(** * Workflow controller configuration (pkg/workflow/controller/config.go)

    A shallow embedding of the configuration loader of the Cyclone workflow
    controller: the configuration structs, the process-wide [Config]
    variable, [LoadConfig] with its helpers [validate] and [defaultValues],
    and [ImagePullPolicy].

    Conventions.
    - Go [int], [int64] and [time.Duration] fields are [Z]; the code only
      compares them with 0 and stores the constant 1, so no wrap-around
      occurs anywhere in this file.
    - Go maps are [gmap]s; a nil map and an empty map read the same.
    - The package-level variable [Config] and the log output are the two
      fields of [World]; functions taking a pointer to the configuration
      are computations of the state monad [M] over [World].
    - [json.Unmarshal], [corev1.ResourceRequirements] and the error values
      of encoding/json belong to libraries outside the repository: they are
      section variables. *)

From Stdlib Require Import Ascii String.
From stdpp Require Import base numbers strings list gmap.

Local Open Scope Z_scope.
Local Open Scope string_scope.

(** ** Constants *)

Definition DevModeEnvName : string := "DEVELOP_MODE".
Definition ConfigFileKey : string := "workflow-controller.json".
Definition CoordinatorImage : string := "coordinator".
Definition GCImage : string := "gc".
Definition DindImage : string := "dind".
Definition ToolboxImage : string := "toolbox".

(** ** Configuration structs *)

Record LoggingConfig := mkLoggingConfig {
  Level : string
}.

Record ExecutionContext := mkExecutionContext {
  Namespace : string;
  PVC : string;
  ServiceAccount : string
}.

Record LimitsConfig := mkLimitsConfig {
  MaxWorkflowRuns : Z
}.

Record ParallelismConstraint := mkParallelismConstraint {
  MaxParallel : Z;
  MaxQueueSize : Z
}.

Record ParallelismConfig := mkParallelismConfig {
  Overall : ParallelismConstraint;
  SingleWorkflow : ParallelismConstraint
}.

Record DindSettings := mkDindSettings {
  InsecureRegistries : list string;
  Bip : string
}.

Record WorkersNumber := mkWorkersNumber {
  ExecutionCluster : Z;
  WorkflowTrigger : Z;
  WorkflowRun : Z;
  Pod : Z
}.

(** corev1.ConfigMap, reduced to the two fields [LoadConfig] reads. *)
Record ConfigMap := mkConfigMap {
  Name : string;
  Data : gmap string string
}.

(** corev1.PullPolicy. *)
Inductive PullPolicy := PullAlways | PullNever | PullIfNotPresent.

(** logrus levels used by this file. *)
Inductive LogLevel := DebugLevel | InfoLevel | WarnLevel.

(** The calls [LoadConfig] makes, in the order of its body. *)
Inductive Callee := CallUnmarshal | CallValidate | CallDefaultValues | CallInitLogger.

(** What a run leaves behind besides the configuration: log records (level,
    fields, message), the calls entered, and the logging set-up. *)
Inductive Event :=
| Log (lvl : LogLevel) (fields : list (string * string)) (msg : string)
| Enter (f : Callee)
| LoggerInitialised (logging : LoggingConfig).

Section Controller.

(** corev1.ResourceRequirements is opaque to this package. *)
Context {ResourceRequirements : Type}.

Record GCConfig := mkGCConfig {
  Enabled : bool;
  DelaySeconds : Z;
  RetryCount : Z;
  GC_ResourceRequirements : ResourceRequirements
}.

Record WorkflowControllerConfig := mkWorkflowControllerConfig {
  Images : gmap string string;
  Logging : LoggingConfig;
  GC : GCConfig;
  Limits : LimitsConfig;
  Parallelism : option ParallelismConfig;
  Cfg_ResourceRequirements : ResourceRequirements;
  ExecutionContext_ : ExecutionContext;
  CycloneServerAddr : string;
  NotificationURL : string;
  DindSettings_ : DindSettings;
  WorkersNumber_ : WorkersNumber
}.

(** In-place assignment to [config.WorkersNumber]. *)
Definition set_WorkersNumber (wn : WorkersNumber) (c : WorkflowControllerConfig)
  : WorkflowControllerConfig :=
  {| Images := Images c; Logging := Logging c; GC := GC c; Limits := Limits c;
     Parallelism := Parallelism c;
     Cfg_ResourceRequirements := Cfg_ResourceRequirements c;
     ExecutionContext_ := ExecutionContext_ c;
     CycloneServerAddr := CycloneServerAddr c;
     NotificationURL := NotificationURL c;
     DindSettings_ := DindSettings_ c;
     WorkersNumber_ := wn |}.

Definition set_ExecutionCluster (n : Z) (wn : WorkersNumber) : WorkersNumber :=
  {| ExecutionCluster := n; WorkflowTrigger := WorkflowTrigger wn;
     WorkflowRun := WorkflowRun wn; Pod := Pod wn |}.
Definition set_WorkflowTrigger (n : Z) (wn : WorkersNumber) : WorkersNumber :=
  {| ExecutionCluster := ExecutionCluster wn; WorkflowTrigger := n;
     WorkflowRun := WorkflowRun wn; Pod := Pod wn |}.
Definition set_WorkflowRun (n : Z) (wn : WorkersNumber) : WorkersNumber :=
  {| ExecutionCluster := ExecutionCluster wn; WorkflowTrigger := WorkflowTrigger wn;
     WorkflowRun := n; Pod := Pod wn |}.
Definition set_Pod (n : Z) (wn : WorkersNumber) : WorkersNumber :=
  {| ExecutionCluster := ExecutionCluster wn; WorkflowTrigger := WorkflowTrigger wn;
     WorkflowRun := WorkflowRun wn; Pod := n |}.

(** ** Process state and the monad of the loader *)

(** [Config] is the package-level variable; [trace] grows at its head. *)
Record World := mkWorld {
  Config : WorkflowControllerConfig;
  trace : list Event
}.

Definition M (A : Type) : Type := World -> A * World.

Definition ret {A} (a : A) : M A := fun w => (a, w).
Definition bind {A B} (m : M A) (k : A -> M B) : M B :=
  fun w => let (a, w') := m w in k a w'.

#[local] Instance M_ret : MRet M := @ret.
#[local] Instance M_bind : MBind M := fun A B k m => bind m k.

Definition getConfig : M WorkflowControllerConfig := fun w => (Config w, w).
Definition putConfig (c : WorkflowControllerConfig) : M unit :=
  fun w => (tt, {| Config := c; trace := trace w |}).
Definition emit (e : Event) : M unit :=
  fun w => (tt, {| Config := Config w; trace := e :: trace w |}).
Definition when (b : bool) (m : M unit) : M unit := if b then m else ret tt.

(** A call of [body], recorded on entry. *)
Definition call {A} (f : Callee) (body : M A) : M A := emit (Enter f) ;; body.

(** logrus: log.Warn, log.Info, log.WithField(..).Debug. *)
Definition log_Warn (msg : string) : M unit := emit (Log WarnLevel [] msg).
Definition log_Info (msg : string) : M unit := emit (Log InfoLevel [] msg).
Definition log_Debug (fields : list (string * string)) (msg : string) : M unit :=
  emit (Log DebugLevel fields msg).

(** ** Errors *)

(** The error values of encoding/json, with their [Error()] text. *)
Context {json_error : Type} (Error : json_error -> string).

(** A Go [error] as [LoadConfig] returns it: built by fmt.Errorf, or the
    decoder's error passed on unchanged. [None] is nil. *)
Inductive error :=
| Errorf (msg : string)
| JSONError (e : json_error).

(** ** The decoder *)

(** [json.Unmarshal([]byte(data), &Config)]: decodes onto the value the
    target already holds and reports an error or nil. *)
Context (Unmarshal : string -> WorkflowControllerConfig ->
                     WorkflowControllerConfig * option json_error).

Definition json_Unmarshal (data : string) : M (option json_error) :=
  c ← getConfig;
  let (c', err) := Unmarshal data c in
  putConfig c' ;; ret err.

(** ** validate *)

Definition validate : M bool :=
  config ← getConfig;
  when (bool_decide (PVC (ExecutionContext_ config) = ""))
    (log_Warn "PVC not configured, resources won't be shared among stages and artifacts unsupported.") ;;
  ret true.

(** ** defaultValues *)

Definition modify_WorkersNumber (f : WorkersNumber -> WorkersNumber) : M unit :=
  config ← getConfig;
  putConfig (set_WorkersNumber (f (WorkersNumber_ config)) config).

Definition defaultValues : M unit :=
  config ← getConfig;
  when (Z.eqb (ExecutionCluster (WorkersNumber_ config)) 0)
    (modify_WorkersNumber (set_ExecutionCluster 1) ;;
     log_Info "WorkersNumber.ExecutionCluster not configured, will use default value '1'") ;;
  config ← getConfig;
  when (Z.eqb (Pod (WorkersNumber_ config)) 0)
    (modify_WorkersNumber (set_Pod 1) ;;
     log_Info "WorkersNumber.Pod not configured, will use default value '1'") ;;
  config ← getConfig;
  when (Z.eqb (WorkflowTrigger (WorkersNumber_ config)) 0)
    (modify_WorkersNumber (set_WorkflowTrigger 1) ;;
     log_Info "WorkersNumber.WorkflowTrigger not configured, will use default value '1'") ;;
  config ← getConfig;
  when (Z.eqb (WorkflowRun (WorkersNumber_ config)) 0)
    (modify_WorkersNumber (set_WorkflowRun 1) ;;
     log_Info "WorkersNumber.WorkflowRun not configured, will use default value '1'").

(** ** InitLogger *)

(** Modelled from the spec: [InitLogger] is declared in another file of
    the package. Section 4.1 gives its effect: it initialises the
    process-wide logging verbosity from the snapshot. It receives
    [&Config.Logging] only, so it is recorded as an event carrying the
    logging configuration it is handed and the configuration is kept. *)
Definition InitLogger : M unit :=
  config ← getConfig;
  emit (LoggerInitialised (Logging config)).

(** ** LoadConfig *)

Definition missing_key_message (cm : ConfigMap) : string :=
  "ConfigMap '" +:+ Name cm +:+ "' doesn't have data key '" +:+ ConfigFileKey +:+ "'".

Definition LoadConfig (cm : ConfigMap) : M (option error) :=
  match Data cm !! ConfigFileKey with
  | None => ret (Some (Errorf (missing_key_message cm)))
  | Some data =>
      err ← call CallUnmarshal (json_Unmarshal data);
      match err with
      | Some e =>
          log_Debug [("data", data)] ("Unmarshal config data error: " +:+ Error e) ;;
          ret (Some (JSONError e))
      | None =>
          ok ← call CallValidate validate;
          if negb ok then ret (Some (Errorf "validate config failed"))
          else
            call CallDefaultValues defaultValues ;;
            call CallInitLogger InitLogger ;;
            ret None
      end
  end.

End Controller.

Arguments GCConfig : clear implicits.
Arguments WorkflowControllerConfig : clear implicits.
Arguments World : clear implicits.
Arguments error : clear implicits.

(** ** Notions used to state the properties of the loader *)

(** What [defaultValues] makes of one worker-pool size. *)
Definition defaulted (n : Z) : Z := if (n =? 0)%Z then 1 else n.

Definition defaulted_workers (wn : WorkersNumber) : WorkersNumber :=
  {| ExecutionCluster := defaulted (ExecutionCluster wn);
     WorkflowTrigger := defaulted (WorkflowTrigger wn);
     WorkflowRun := defaulted (WorkflowRun wn);
     Pod := defaulted (Pod wn) |}.

(** The events a run has added to the trace, newest first. *)
Definition events_since {RR : Type} (w w' : World RR) (evs : list Event) : Prop :=
  trace w' = (evs ++ trace w)%list.

(** The world after a call has been entered. *)
Definition entered {RR : Type} (f : Callee) (w : World RR) : World RR :=
  {| Config := Config w; trace := Enter f :: trace w |}.

(** The world in which [validate] runs after a successful decode. *)
Definition decoded {RR : Type} (w : World RR) (c' : WorkflowControllerConfig RR) : World RR :=
  {| Config := c'; trace := Enter CallValidate :: Enter CallUnmarshal :: trace w |}.

(** ** ImagePullPolicy *)

(** The process environment, and [os.Getenv]: the value of the variable, or
    the empty string when it is not set. *)
Definition Getenv (env : gmap string string) (key : string) : string :=
  default "" (env !! key).

Definition ImagePullPolicy (env : gmap string string) : PullPolicy :=
  if bool_decide (Getenv env DevModeEnvName = "true") then PullAlways
  else PullIfNotPresent.

(** ** The start of the process, and sample documents

    [var Config WorkflowControllerConfig] starts as the zero value of the
    struct; nothing has been logged yet. *)

Definition zero_Config {RR : Type} (rr0 : RR) : WorkflowControllerConfig RR :=
  {| Images := ∅;
     Logging := {| Level := "" |};
     GC := {| Enabled := false; DelaySeconds := 0; RetryCount := 0;
              GC_ResourceRequirements := rr0 |};
     Limits := {| MaxWorkflowRuns := 0 |};
     Parallelism := None;
     Cfg_ResourceRequirements := rr0;
     ExecutionContext_ := {| Namespace := ""; PVC := ""; ServiceAccount := "" |};
     CycloneServerAddr := "";
     NotificationURL := "";
     DindSettings_ := {| InsecureRegistries := []; Bip := "" |};
     WorkersNumber_ := {| ExecutionCluster := 0; WorkflowTrigger := 0;
                          WorkflowRun := 0; Pod := 0 |} |}.

Definition initial_World : World unit :=
  {| Config := zero_Config tt; trace := [] |}.

Definition set_CycloneServerAddr {RR : Type} (a : string) (c : WorkflowControllerConfig RR)
  : WorkflowControllerConfig RR :=
  {| Images := Images c; Logging := Logging c; GC := GC c; Limits := Limits c;
     Parallelism := Parallelism c;
     Cfg_ResourceRequirements := Cfg_ResourceRequirements c;
     ExecutionContext_ := ExecutionContext_ c;
     CycloneServerAddr := a;
     NotificationURL := NotificationURL c;
     DindSettings_ := DindSettings_ c;
     WorkersNumber_ := WorkersNumber_ c |}.

(** The double quote of JSON text, and a quoted JSON string. *)
Definition dquote : string := String "034"%char EmptyString.
Definition quoted (s : string) : string := dquote +:+ s +:+ dquote.

(** {"cyclone_server_addr":"http://cyclone-server",
     "workers_number":{"workflow_trigger":3,"workflow_run":-2}} *)
Definition payload_workers : string :=
  "{" +:+ quoted "cyclone_server_addr" +:+ ":" +:+ quoted "http://cyclone-server" +:+ ","
      +:+ quoted "workers_number" +:+ ":{" +:+ quoted "workflow_trigger" +:+ ":3,"
      +:+ quoted "workflow_run" +:+ ":-2}}".

(** {"workers_number":{"pod":4}} *)
Definition payload_pod : string :=
  "{" +:+ quoted "workers_number" +:+ ":{" +:+ quoted "pod" +:+ ":4}}".

(** {"cyclone_server_addr":"http://elsewhere","workers_number":{"pod":"four"}} *)
Definition payload_bad_type : string :=
  "{" +:+ quoted "cyclone_server_addr" +:+ ":" +:+ quoted "http://elsewhere" +:+ ","
      +:+ quoted "workers_number" +:+ ":{" +:+ quoted "pod" +:+ ":" +:+ quoted "four" +:+ "}}".

(** Not JSON at all. *)
Definition payload_garbage : string := "workers: many".

(** The two kinds of error encoding/json reports for a struct target. *)
Inductive sample_json_error :=
| SyntaxError (msg : string)
| UnmarshalTypeError (value field type : string).

Definition sample_Error (e : sample_json_error) : string :=
  match e with
  | SyntaxError msg => msg
  | UnmarshalTypeError value field type =>
      "json: cannot unmarshal " +:+ value +:+ " into Go struct field " +:+ field
        +:+ " of type " +:+ type
  end.

(** What encoding/json does with the sample payloads, by its documented
    rules: a member of the document is stored in the field carrying its
    name and the other fields keep the value the target already has; a
    value that does not fit its field is skipped, decoding goes on, and the
    first such mismatch is returned as an UnmarshalTypeError; a text that is
    not JSON is refused before anything is stored. Texts other than the
    samples are not used below and are treated like the last case. *)
Definition sample_Unmarshal (data : string) (c : WorkflowControllerConfig unit)
  : WorkflowControllerConfig unit * option sample_json_error :=
  if (data =? payload_workers)%string then
    (set_CycloneServerAddr "http://cyclone-server"
       (set_WorkersNumber
          (set_WorkflowRun (-2) (set_WorkflowTrigger 3 (WorkersNumber_ c))) c),
     None)
  else if (data =? payload_pod)%string then
    (set_WorkersNumber (set_Pod 4 (WorkersNumber_ c)) c, None)
  else if (data =? payload_bad_type)%string then
    (set_CycloneServerAddr "http://elsewhere" c,
     Some (UnmarshalTypeError "string" "WorkersNumber.pod" "int"))
  else
    (c, Some (SyntaxError "invalid character 'w' looking for beginning of value")).

Definition document (name payload : string) : ConfigMap :=
  {| Name := name; Data := {[ ConfigFileKey := payload ]} |}.

Definition document_without_key (name : string) : ConfigMap :=
  {| Name := name; Data := {[ "other.json" := payload_workers ]} |}.

Definition sample_LoadConfig : ConfigMap -> World unit -> option (error sample_json_error) * World unit :=
  LoadConfig sample_Error sample_Unmarshal.

(** The Info records [defaultValues] writes, newest first: one for each
    size it finds at zero, written in the order of its four tests. *)
Definition defaulting_logs (wn : WorkersNumber) : list Event :=
  ((if (WorkflowRun wn =? 0)%Z
    then [Log InfoLevel [] "WorkersNumber.WorkflowRun not configured, will use default value '1'"]
    else []) ++
   (if (WorkflowTrigger wn =? 0)%Z
    then [Log InfoLevel [] "WorkersNumber.WorkflowTrigger not configured, will use default value '1'"]
    else []) ++
   (if (Pod wn =? 0)%Z
    then [Log InfoLevel [] "WorkersNumber.Pod not configured, will use default value '1'"]
    else []) ++
   (if (ExecutionCluster wn =? 0)%Z
    then [Log InfoLevel [] "WorkersNumber.ExecutionCluster not configured, will use default value '1'"]
    else []))%list.

(** How many of the four sizes are zero. *)
Definition zero_sizes (wn : WorkersNumber) : nat :=
  (Nat.b2n (ExecutionCluster wn =? 0)%Z + Nat.b2n (WorkflowTrigger wn =? 0)%Z +
   Nat.b2n (WorkflowRun wn =? 0)%Z + Nat.b2n (Pod wn =? 0)%Z)%nat.

(** The record [validate] writes for a configuration, if any. *)
Definition validation_logs {RR : Type} (c : WorkflowControllerConfig RR) : list Event :=
  if bool_decide (PVC (ExecutionContext_ c) = "")
  then [Log WarnLevel [] "PVC not configured, resources won't be shared among stages and artifacts unsupported."]
  else [].

(** The events a load adds when the decoder is satisfied with the payload
    and leaves [c], newest first. *)
Definition success_events {RR : Type} (c : WorkflowControllerConfig RR) : list Event :=
  (LoggerInitialised (Logging c) :: Enter CallInitLogger ::
   defaulting_logs (WorkersNumber_ c) ++ Enter CallDefaultValues ::
   validation_logs c ++ [Enter CallValidate; Enter CallUnmarshal])%list.

(** The calls entered among the events of a trace, oldest first. *)
Definition entered_call (e : Event) : option Callee :=
  match e with
  | Enter f => Some f
  | _ => None
  end.

Definition calls_of (evs : list Event) : list Callee :=
  rev (omap entered_call evs).

Definition is_warning (e : Event) : Prop :=
  ∃ fields msg, e = Log WarnLevel fields msg.

(** The sample payload under the key, in a ConfigMap of another name with
    a further entry. *)
Definition crowded_document : ConfigMap :=
  {| Name := "cyclone-staging";
     Data := <[ "notes.txt" := "kept for the operators" ]>
               {[ ConfigFileKey := payload_workers ]} |}.

(** A world whose four sizes are all set. *)
Definition configured_World : World unit :=
  {| Config := set_WorkersNumber
                 {| ExecutionCluster := 2; WorkflowTrigger := 3;
                    WorkflowRun := -1; Pod := 5 |} (zero_Config tt);
     trace := [Enter CallUnmarshal] |}.

(** * Admission control

    The controller that consumes [ParallelismConfig] lives in another
    package of the repository; this file only declares the limits. The
    definitions of this part follow section 4.2 of the specification. Every
    operation is one atomic step on the controller's state, as section 5
    requires (a single logical critical section), so an interleaving of
    callers is a sequence of calls. *)

(** Modelled from the spec: the states of a WorkflowRun (section 3). *)
Inductive RunState := Pending | Queued | Running | Completed | Failed | Cancelled.

#[global] Instance RunState_eq_dec : EqDecision RunState.
Proof. solve_decision. Defined.

(** Modelled from the spec: the terminal states, in which NotifyCompletion
    reports a run. *)
Inductive Terminal := EndCompleted | EndFailed | EndCancelled.

Definition terminal_state (t : Terminal) : RunState :=
  match t with
  | EndCompleted => Completed
  | EndFailed => Failed
  | EndCancelled => Cancelled
  end.

(** Modelled from the spec: a WorkflowRun as its requester names it
    (identifier and workflow identity); its state is kept by the controller,
    which owns the run while it is not terminal. *)
Record Run := mkRun {
  runID : nat;
  workflowID : nat
}.

(** Modelled from the spec: the state of the AdmissionController of section
    4.2: two counters and two FIFO queues, one pair global and one pair per
    workflow identity (created lazily: an absent entry reads 0 or the empty
    queue), and the state of every run the controller has seen (a run it has
    not seen, or has rejected, is Pending). *)
Record AdmissionController := mkAdmissionController {
  runningGlobal : Z;
  runningPerWorkflow : gmap nat Z;
  queueGlobal : list Run;
  queuePerWorkflow : gmap nat (list Run);
  runs : gmap nat (nat * RunState)
}.

Definition empty_controller : AdmissionController :=
  {| runningGlobal := 0; runningPerWorkflow := ∅; queueGlobal := [];
     queuePerWorkflow := ∅; runs := ∅ |}.

Definition running_of (ac : AdmissionController) (wf : nat) : Z :=
  default 0 (runningPerWorkflow ac !! wf).

Definition queue_of (ac : AdmissionController) (wf : nat) : list Run :=
  default [] (queuePerWorkflow ac !! wf).

Definition state_of (ac : AdmissionController) (rid : nat) : RunState :=
  from_option snd Pending (runs ac !! rid).

(** Modelled from the spec: step 1 of RequestAdmission, the capacity check
    [runningGlobal < overall.maxParallel] and
    [runningPerWorkflow[workflowID] < perWorkflow.maxParallel]. *)
Definition has_capacity (p : ParallelismConfig) (ac : AdmissionController) (wf : nat) : bool :=
  (runningGlobal ac <? MaxParallel (Overall p))%Z
  && (running_of ac wf <? MaxParallel (SingleWorkflow p))%Z.

(** Modelled from the spec: step 2 of RequestAdmission, the two
    queue-capacity checks. *)
Definition has_queue_room (p : ParallelismConfig) (ac : AdmissionController) (wf : nat) : bool :=
  (Z.of_nat (length (queueGlobal ac)) <? MaxQueueSize (Overall p))%Z
  && (Z.of_nat (length (queue_of ac wf)) <? MaxQueueSize (SingleWorkflow p))%Z.

(** Modelled from the spec: admitting a run increments both counters and
    moves the run to Running. *)
Definition admit_run (r : Run) (ac : AdmissionController) : AdmissionController :=
  {| runningGlobal := runningGlobal ac + 1;
     runningPerWorkflow :=
       <[workflowID r := running_of ac (workflowID r) + 1]> (runningPerWorkflow ac);
     queueGlobal := queueGlobal ac;
     queuePerWorkflow := queuePerWorkflow ac;
     runs := <[runID r := (workflowID r, Running)]> (runs ac) |}.

(** Modelled from the spec: queueing a run appends it to the global queue
    and to the queue of its workflow and moves it to Queued. *)
Definition enqueue (r : Run) (ac : AdmissionController) : AdmissionController :=
  {| runningGlobal := runningGlobal ac;
     runningPerWorkflow := runningPerWorkflow ac;
     queueGlobal := (queueGlobal ac ++ [r])%list;
     queuePerWorkflow :=
       <[workflowID r := (queue_of ac (workflowID r) ++ [r])%list]> (queuePerWorkflow ac);
     runs := <[runID r := (workflowID r, Queued)]> (runs ac) |}.

(** Modelled from the spec: a run leaves both queues by its identifier. *)
Definition other_run (r : Run) (q : Run) : bool := negb (runID q =? runID r)%nat.

Definition dequeue (r : Run) (ac : AdmissionController) : AdmissionController :=
  {| runningGlobal := runningGlobal ac;
     runningPerWorkflow := runningPerWorkflow ac;
     queueGlobal := List.filter (other_run r) (queueGlobal ac);
     queuePerWorkflow :=
       <[workflowID r := List.filter (other_run r) (queue_of ac (workflowID r))]>
         (queuePerWorkflow ac);
     runs := runs ac |}.

Inductive RejectReason := QueueFull.
Inductive AdmissionResult := RunAdmitted | Enqueued | Rejected (why : RejectReason).

(** Modelled from the spec: RequestAdmission of section 4.2, steps 1 to 3.
    A rejected run is left as it is (Pending). *)
Definition RequestAdmission (p : ParallelismConfig) (r : Run) (ac : AdmissionController)
  : AdmissionResult * AdmissionController :=
  if has_capacity p ac (workflowID r) then (RunAdmitted, admit_run r ac)
  else if has_queue_room p ac (workflowID r) then (Enqueued, enqueue r ac)
  else (Rejected QueueFull, ac).

(** Modelled from the spec: promotion of waiting runs in NotifyCompletion.
    The waiting runs are visited oldest first; each candidate is checked
    against both capacities as they stand when it is visited (step 1 logic);
    a candidate that passes leaves the queues and is admitted, one that is
    blocked stays queued and the scan goes on to younger runs. *)
Fixpoint promote (p : ParallelismConfig) (candidates : list Run) (ac : AdmissionController)
  : AdmissionController :=
  match candidates with
  | [] => ac
  | r :: rest =>
      promote p rest
        (if has_capacity p ac (workflowID r) then admit_run r (dequeue r ac) else ac)
  end.

(** Modelled from the spec: the first half of NotifyCompletion: both
    counters are decremented and the run is recorded in its terminal
    state. *)
Definition release (r : Run) (t : Terminal) (ac : AdmissionController) : AdmissionController :=
  {| runningGlobal := runningGlobal ac - 1;
     runningPerWorkflow :=
       <[workflowID r := running_of ac (workflowID r) - 1]> (runningPerWorkflow ac);
     queueGlobal := queueGlobal ac;
     queuePerWorkflow := queuePerWorkflow ac;
     runs := <[runID r := (workflowID r, terminal_state t)]> (runs ac) |}.

(** Modelled from the spec: NotifyCompletion of section 4.2. *)
Definition NotifyCompletion (p : ParallelismConfig) (r : Run) (t : Terminal)
  (ac : AdmissionController) : AdmissionController :=
  let ac' := release r t ac in
  promote p (queueGlobal ac') ac'.

(** The runs in state Running, system-wide and for one workflow. *)
Definition is_running (kv : nat * (nat * RunState)) : Prop := kv.2.2 = Running.
Definition is_running_of (wf : nat) (kv : nat * (nat * RunState)) : Prop :=
  kv.2 = (wf, Running).

#[global] Instance is_running_dec kv : Decision (is_running kv).
Proof. unfold is_running. apply _. Defined.
#[global] Instance is_running_of_dec wf kv : Decision (is_running_of wf kv).
Proof. unfold is_running_of. apply _. Defined.

Definition running_count (ac : AdmissionController) : nat :=
  size (filter is_running (runs ac)).
Definition running_count_of (ac : AdmissionController) (wf : nat) : nat :=
  size (filter (is_running_of wf) (runs ac)).

(** The states the controller can be in: it starts empty; any run may
    request admission at any time; completion is notified for a run that is
    Running (section 4.2: exactly once per run reaching a terminal state
    from Running). *)
Inductive reachable (p : ParallelismConfig) : AdmissionController -> Prop :=
| reach_start : reachable p empty_controller
| reach_request r ac :
    reachable p ac -> reachable p (RequestAdmission p r ac).2
| reach_complete r t ac :
    reachable p ac ->
    runs ac !! runID r = Some (workflowID r, Running) ->
    reachable p (NotifyCompletion p r t ac).

(** The counters bound the runs that are Running, and the limits bound the
    counters. *)
Definition counters_cover_runs (p : ParallelismConfig) (ac : AdmissionController) : Prop :=
  (Z.of_nat (running_count ac) ≤ runningGlobal ac ∧
   runningGlobal ac ≤ MaxParallel (Overall p))%Z ∧
  ∀ wf, (Z.of_nat (running_count_of ac wf) ≤ running_of ac wf ∧
         running_of ac wf ≤ MaxParallel (SingleWorkflow p))%Z.

Definition limits (overall_parallel overall_queue single_parallel single_queue : Z)
  : ParallelismConfig :=
  {| Overall := {| MaxParallel := overall_parallel; MaxQueueSize := overall_queue |};
     SingleWorkflow := {| MaxParallel := single_parallel; MaxQueueSize := single_queue |} |}.

(** The scenario of section 8: limits 2/1 overall and 2/1 per workflow, four
    requests of workflow 7, then the completion of the first run. *)
Definition scenario_limits : ParallelismConfig := limits 2 1 2 1.
Definition after_requests (n : nat) : AdmissionController :=
  foldl (λ ac i, (RequestAdmission scenario_limits (mkRun i 7) ac).2)
        empty_controller (seq 1 n).
Definition after_completion : AdmissionController :=
  NotifyCompletion scenario_limits (mkRun 1 7) EndCompleted (after_requests 4).

(** * Properties of the configuration loader *)

Section LoaderProperties.

Context {RR json_error : Type}.
Context (Error : json_error -> string).
Context (Unmarshal : string -> WorkflowControllerConfig RR ->
                     WorkflowControllerConfig RR * option json_error).

Local Abbreviation load := (LoadConfig Error Unmarshal).

Lemma validate_true (w : World RR) : (validate w).1 = true.
Proof.
  unfold validate, mbind, M_bind, bind. cbn.
  by destruct (bool_decide _).
Qed.

Lemma validate_Config (w : World RR) : Config (validate w).2 = Config w.
Proof.
  unfold validate, mbind, M_bind, bind. cbn.
  by destruct (bool_decide _).
Qed.

Lemma validate_trace (w : World RR) :
  trace (validate w).2 =
  if bool_decide (PVC (ExecutionContext_ (Config w)) = "")
  then Log WarnLevel [] "PVC not configured, resources won't be shared among stages and artifacts unsupported." :: trace w
  else trace w.
Proof.
  unfold validate, mbind, M_bind, bind. cbn.
  by destruct (bool_decide _).
Qed.

Lemma defaultValues_Config (w : World RR) :
  Config (defaultValues w).2 =
  set_WorkersNumber (defaulted_workers (WorkersNumber_ (Config w))) (Config w).
Proof.
  destruct w as [[? ? ? ? ? ? ? ? ? ? [ec wt wr pod]] tr].
  destruct ec, wt, wr, pod; reflexivity.
Qed.

Lemma defaultValues_suffix (w : World RR) :
  ∃ evs, events_since w (defaultValues w).2 evs ∧ ∀ f, Enter f ∉ evs.
Proof.
  destruct w as [[? ? ? ? ? ? ? ? ? ? [ec wt wr pod]] tr].
  unfold events_since.
  destruct ec, wt, wr, pod;
    (eexists; split;
     [ first [ instantiate (1 := []); reflexivity
             | instantiate (1 := [_]); reflexivity
             | instantiate (1 := [_; _]); reflexivity
             | instantiate (1 := [_; _; _]); reflexivity
             | instantiate (1 := [_; _; _; _]); reflexivity ]
     | intros f Hf;
       repeat (apply elem_of_cons in Hf as [Hf|Hf]; [ discriminate | ]);
       by apply elem_of_nil in Hf ]).
Qed.

Lemma InitLogger_Config (w : World RR) : Config (InitLogger w).2 = Config w.
Proof. reflexivity. Qed.

Lemma InitLogger_trace (w : World RR) :
  trace (InitLogger w).2 = LoggerInitialised (Logging (Config w)) :: trace w.
Proof. reflexivity. Qed.

Lemma defaulted_fixed (n : Z) : defaulted (defaulted n) = defaulted n.
Proof. unfold defaulted. destruct (n =? 0)%Z eqn:E; [ reflexivity | by rewrite E ]. Qed.

(** The three ways through [LoadConfig]. *)

Lemma load_missing (cm : ConfigMap) (w : World RR) :
  Data cm !! ConfigFileKey = None ->
  load cm w = (Some (Errorf (missing_key_message cm)), w).
Proof. intros H. unfold LoadConfig. by rewrite H. Qed.

Lemma load_undecodable (cm : ConfigMap) (w : World RR) data c' e :
  Data cm !! ConfigFileKey = Some data ->
  Unmarshal data (Config w) = (c', Some e) ->
  load cm w =
  (Some (JSONError e),
   {| Config := c';
      trace := Log DebugLevel [("data", data)] ("Unmarshal config data error: " +:+ Error e)
               :: Enter CallUnmarshal :: trace w |}).
Proof.
  intros Hk Hd. unfold LoadConfig. rewrite Hk.
  unfold call, json_Unmarshal, mbind, M_bind, bind. cbn. by rewrite Hd.
Qed.

Lemma load_decoded (cm : ConfigMap) (w : World RR) data c' :
  Data cm !! ConfigFileKey = Some data ->
  Unmarshal data (Config w) = (c', None) ->
  load cm w =
  (None,
   (InitLogger
      (entered CallInitLogger
         (defaultValues
            (entered CallDefaultValues (validate (decoded w c')).2)).2)).2).
Proof.
  intros Hk Hd. unfold LoadConfig. rewrite Hk.
  unfold call, json_Unmarshal, mbind, M_bind, bind, getConfig, emit. cbn.
  rewrite Hd. cbn. fold (decoded w c').
  pose proof (validate_true (decoded w c')) as Hv.
  destruct (validate (decoded w c')) as [ok w1]. cbn in Hv. subst ok. cbn.
  fold (entered CallDefaultValues w1).
  destruct (defaultValues _) as [[] w2]. cbn.
  fold (entered CallInitLogger w2).
  by destruct (InitLogger _) as [[] w3].
Qed.

Lemma load_decoded_Config (cm : ConfigMap) (w : World RR) data c' :
  Data cm !! ConfigFileKey = Some data ->
  Unmarshal data (Config w) = (c', None) ->
  (load cm w).1 = None ∧
  Config (load cm w).2 = set_WorkersNumber (defaulted_workers (WorkersNumber_ c')) c'.
Proof.
  intros Hk Hd. rewrite (load_decoded cm w data c' Hk Hd). split; [ done | ].
  etrans; [ apply InitLogger_Config | ].
  etrans; [ apply defaultValues_Config | ].
  change (Config (entered CallDefaultValues ?x)) with (Config x).
  by rewrite validate_Config.
Qed.

Lemma load_decoded_trace (cm : ConfigMap) (w : World RR) data c' :
  Data cm !! ConfigFileKey = Some data ->
  Unmarshal data (Config w) = (c', None) ->
  ∃ evs,
    (∀ f, Enter f ∉ evs) ∧
    trace (load cm w).2 =
    (LoggerInitialised (Logging c') :: Enter CallInitLogger :: evs ++
     Enter CallDefaultValues :: trace (validate (decoded w c')).2)%list.
Proof.
  intros Hk Hd. rewrite (load_decoded cm w data c' Hk Hd).
  destruct (defaultValues_suffix (entered CallDefaultValues (validate (decoded w c')).2))
    as (evs & Hevs & Hno).
  exists evs. split; [ done | ].
  unfold events_since in Hevs.
  etrans; [ apply InitLogger_trace | ].
  change (trace (entered CallInitLogger ?x)) with (Enter CallInitLogger :: trace x).
  change (Config (entered CallInitLogger ?x)) with (Config x).
  rewrite Hevs, defaultValues_Config.
  change (Config (entered CallDefaultValues ?x)) with (Config x).
  by rewrite validate_Config.
Qed.

(** C1: a ConfigMap whose data lacks the key workflow-controller.json makes
    LoadConfig return the error built by fmt.Errorf, and nothing else
    happens: the world it returns is the world it got, so the configuration
    is the same and no call (decoding, validation, defaulting, logger
    set-up) was entered and nothing was logged. *)
Theorem LoadConfig_missing_key (cm : ConfigMap) (w : World RR) :
  Data cm !! ConfigFileKey = None ->
  (load cm w).1 = Some (Errorf (missing_key_message cm)) ∧
  (load cm w).2 = w ∧
  events_since w (load cm w).2 [].
Proof.
  intros Hk. rewrite (load_missing cm w Hk). by repeat split.
Qed.

(** C2: when the key is present and the decoder reports an error for its
    payload, LoadConfig returns that error, not nil. *)
Theorem LoadConfig_undecodable_payload (cm : ConfigMap) (w : World RR) data c' e :
  Data cm !! ConfigFileKey = Some data ->
  Unmarshal data (Config w) = (c', Some e) ->
  (load cm w).1 = Some (JSONError e).
Proof.
  intros Hk Hd. by rewrite (load_undecodable cm w data c' e Hk Hd).
Qed.

(** C3: on a successful load every worker-pool size that the decoder left
    at zero is 1 afterwards, and the value of each of the four after the
    load is a function of its own decoded value alone. *)
Theorem LoadConfig_defaults_each_pool (cm : ConfigMap) (w : World RR) data c' :
  Data cm !! ConfigFileKey = Some data ->
  Unmarshal data (Config w) = (c', None) ->
  let before := WorkersNumber_ c' in
  let after := WorkersNumber_ (Config (load cm w).2) in
  (load cm w).1 = None ∧
  ExecutionCluster after = (if (ExecutionCluster before =? 0)%Z then 1 else ExecutionCluster before) ∧
  WorkflowTrigger after = (if (WorkflowTrigger before =? 0)%Z then 1 else WorkflowTrigger before) ∧
  WorkflowRun after = (if (WorkflowRun before =? 0)%Z then 1 else WorkflowRun before) ∧
  Pod after = (if (Pod before =? 0)%Z then 1 else Pod before).
Proof.
  intros Hk Hd. cbv zeta.
  destruct (load_decoded_Config cm w data c' Hk Hd) as [Hr Hc].
  rewrite Hc. by repeat split.
Qed.

(** C4: when the decoded configuration has no PVC, LoadConfig still returns
    nil; validate logs its warning and the load goes on to defaulting and
    the logger set-up. *)
Theorem LoadConfig_without_PVC (cm : ConfigMap) (w : World RR) data c' :
  Data cm !! ConfigFileKey = Some data ->
  Unmarshal data (Config w) = (c', None) ->
  PVC (ExecutionContext_ c') = "" ->
  (load cm w).1 = None ∧
  Log WarnLevel [] "PVC not configured, resources won't be shared among stages and artifacts unsupported."
    ∈ trace (load cm w).2 ∧
  Enter CallDefaultValues ∈ trace (load cm w).2 ∧
  Enter CallInitLogger ∈ trace (load cm w).2.
Proof.
  intros Hk Hd Hpvc.
  destruct (load_decoded_Config cm w data c' Hk Hd) as [Hr _].
  destruct (load_decoded_trace cm w data c' Hk Hd) as (evs & _ & Ht).
  rewrite Ht, validate_trace. cbn. rewrite Hpvc. cbn.
  split; [ done | ].
  repeat split; set_solver.
Qed.

(** C9: validate answers true in every world, so LoadConfig never returns
    its validate-config-failed error: an error it returns is either the
    missing-key error of a document without the key, or the error the
    decoder reported for the payload. *)
Theorem LoadConfig_fails_only_on_key_or_decode :
  (∀ w : World RR, (validate w).1 = true) ∧
  (∀ cm (w : World RR) e,
     (load cm w).1 = Some e ->
     (Data cm !! ConfigFileKey = None ∧ e = Errorf (missing_key_message cm)) ∨
     (∃ data c' je,
        Data cm !! ConfigFileKey = Some data ∧
        Unmarshal data (Config w) = (c', Some je) ∧
        e = JSONError je)) ∧
  (∀ cm (w : World RR), (load cm w).1 ≠ Some (Errorf "validate config failed")).
Proof.
  assert (Hcases : ∀ cm (w : World RR) e,
     (load cm w).1 = Some e ->
     (Data cm !! ConfigFileKey = None ∧ e = Errorf (missing_key_message cm)) ∨
     (∃ data c' je,
        Data cm !! ConfigFileKey = Some data ∧
        Unmarshal data (Config w) = (c', Some je) ∧
        e = JSONError je)).
  { intros cm w e He.
    destruct (Data cm !! ConfigFileKey) as [data|] eqn:Hk.
    - destruct (Unmarshal data (Config w)) as [c' [je|]] eqn:Hd.
      + rewrite (load_undecodable cm w data c' je Hk Hd) in He.
        right. exists data, c', je. cbn in He.
        split; [ done | ]. split; [ done | ]. congruence.
      + destruct (load_decoded_Config cm w data c' Hk Hd) as [Hr _]. congruence.
    - rewrite (load_missing cm w Hk) in He. left. split; [ done | ].
      cbn in He. congruence. }
  split; [ apply validate_true | ]. split; [ exact Hcases | ].
  intros cm w He. destruct (Hcases cm w _ He) as [[_ Hm] | (data & c' & je & _ & _ & Hj)].
  - unfold missing_key_message in Hm. cbn in Hm. discriminate.
  - discriminate.
Qed.

(** C10: a negative worker-pool size in the decoded configuration is kept
    as it is by a successful load, for each of the four pools whatever the
    other three are. *)
Theorem LoadConfig_keeps_negative_pool (cm : ConfigMap) (w : World RR) data c' :
  Data cm !! ConfigFileKey = Some data ->
  Unmarshal data (Config w) = (c', None) ->
  let before := WorkersNumber_ c' in
  let after := WorkersNumber_ (Config (load cm w).2) in
  (ExecutionCluster before < 0 -> ExecutionCluster after = ExecutionCluster before) ∧
  (WorkflowTrigger before < 0 -> WorkflowTrigger after = WorkflowTrigger before) ∧
  (WorkflowRun before < 0 -> WorkflowRun after = WorkflowRun before) ∧
  (Pod before < 0 -> Pod after = Pod before).
Proof.
  intros Hk Hd. cbv zeta.
  destruct (load_decoded_Config cm w data c' Hk Hd) as [_ Hc].
  rewrite Hc. cbn. unfold defaulted.
  repeat split; intros Hneg;
    match goal with |- context [(?n =? 0)%Z] => destruct (Z.eqb_spec n 0) end; lia.
Qed.

(** C5, as the code has it: a load that fails on a missing key leaves the
    world as it was; a load that fails in the decoder leaves in Config what
    the decoder left there, and only the decoder was entered: validation,
    defaulting and the logger set-up did not run. *)
Theorem failed_LoadConfig_state (cm : ConfigMap) (w : World RR) e :
  (load cm w).1 = Some e ->
  (Data cm !! ConfigFileKey = None ∧ (load cm w).2 = w) ∨
  (∃ data je,
     Data cm !! ConfigFileKey = Some data ∧
     (Unmarshal data (Config w)).2 = Some je ∧
     Config (load cm w).2 = (Unmarshal data (Config w)).1 ∧
     trace (load cm w).2 =
       Log DebugLevel [("data", data)] ("Unmarshal config data error: " +:+ Error je)
       :: Enter CallUnmarshal :: trace w).
Proof.
  intros He.
  destruct (Data cm !! ConfigFileKey) as [data|] eqn:Hk.
  - destruct (Unmarshal data (Config w)) as [c' [je|]] eqn:Hd.
    + right. exists data, je.
      rewrite (load_undecodable cm w data c' je Hk Hd), Hd. by repeat split.
    + destruct (load_decoded_Config cm w data c' Hk Hd) as [Hr _]. congruence.
  - left. by rewrite (load_missing cm w Hk).
Qed.

(** C7, as the code has it: after a successful load the four worker-pool
    sizes are non-zero and validate, defaultValues and InitLogger leave
    Config as it is, and so does a later load of a document without the
    key; a later load of a document with the key decodes onto the current
    value of Config, in place, and defaults again when the decoder is
    satisfied. *)
Theorem loaded_Config_stability (cm : ConfigMap) (w : World RR) :
  (load cm w).1 = None ->
  let w1 := (load cm w).2 in
  (ExecutionCluster (WorkersNumber_ (Config w1)) ≠ 0 ∧
   WorkflowTrigger (WorkersNumber_ (Config w1)) ≠ 0 ∧
   WorkflowRun (WorkersNumber_ (Config w1)) ≠ 0 ∧
   Pod (WorkersNumber_ (Config w1)) ≠ 0) ∧
  Config (validate w1).2 = Config w1 ∧
  Config (defaultValues w1).2 = Config w1 ∧
  Config (InitLogger w1).2 = Config w1 ∧
  (∀ cm2, Data cm2 !! ConfigFileKey = None -> (load cm2 w1).2 = w1) ∧
  (∀ cm2 data,
     Data cm2 !! ConfigFileKey = Some data ->
     Config (load cm2 w1).2 =
     match Unmarshal data (Config w1) with
     | (c2, None) => set_WorkersNumber (defaulted_workers (WorkersNumber_ c2)) c2
     | (c2, Some _) => c2
     end).
Proof.
  intros Hok. cbv zeta.
  assert (Hshape : ∃ c', Config (load cm w).2 =
                         set_WorkersNumber (defaulted_workers (WorkersNumber_ c')) c').
  { destruct (Data cm !! ConfigFileKey) as [data|] eqn:Hk.
    - destruct (Unmarshal data (Config w)) as [c' [je|]] eqn:Hd.
      + rewrite (load_undecodable cm w data c' je Hk Hd) in Hok. discriminate.
      + exists c'. by destruct (load_decoded_Config cm w data c' Hk Hd).
    - rewrite (load_missing cm w Hk) in Hok. discriminate. }
  destruct Hshape as [c' Hc]. set (w1 := (load cm w).2) in *.
  split; [ | split; [ | split; [ | split; [ | split ] ] ] ].
  - rewrite Hc. cbn. unfold defaulted.
    repeat split;
      match goal with |- context [(?n =? 0)%Z] => destruct (Z.eqb_spec n 0) end; lia.
  - apply validate_Config.
  - rewrite defaultValues_Config, Hc. cbn. unfold defaulted_workers. cbn.
    by rewrite !defaulted_fixed.
  - apply InitLogger_Config.
  - intros cm2 Hk2. by rewrite (load_missing cm2 w1 Hk2).
  - intros cm2 data Hk2.
    destruct (Unmarshal data (Config w1)) as [c2 [je|]] eqn:Hd.
    + by rewrite (load_undecodable cm2 w1 data c2 je Hk2 Hd).
    + by destruct (load_decoded_Config cm2 w1 data c2 Hk2 Hd).
Qed.

End LoaderProperties.

(** * Properties of ImagePullPolicy *)

(** C6: ImagePullPolicy is a function of the environment alone: it is
    PullAlways exactly when DEVELOP_MODE is set to the text true, and
    PullIfNotPresent when the variable is unset or has any other value. *)
Theorem ImagePullPolicy_by_environment (env : gmap string string) :
  (env !! DevModeEnvName = Some "true" -> ImagePullPolicy env = PullAlways) ∧
  (env !! DevModeEnvName ≠ Some "true" -> ImagePullPolicy env = PullIfNotPresent).
Proof.
  unfold ImagePullPolicy, Getenv. split.
  - intros ->. reflexivity.
  - intros Hne. destruct (env !! DevModeEnvName) as [v|]; cbn.
    + rewrite bool_decide_eq_false_2; [ done | congruence ].
    + reflexivity.
Qed.

(** * The properties at the sample documents *)

Lemma LoadConfig_missing_key_witness :
  Data (document_without_key "cyclone") !! ConfigFileKey = None ∧
  (sample_LoadConfig (document_without_key "cyclone") initial_World).1 =
    Some (Errorf "ConfigMap 'cyclone' doesn't have data key 'workflow-controller.json'") ∧
  (sample_LoadConfig (document_without_key "cyclone") initial_World).2 = initial_World.
Proof.
  assert (Hk : Data (document_without_key "cyclone") !! ConfigFileKey = None)
    by (vm_compute; reflexivity).
  split; [ exact Hk | ].
  destruct (LoadConfig_missing_key sample_Error sample_Unmarshal
              (document_without_key "cyclone") initial_World Hk) as (H1 & H2 & _).
  split; [ exact H1 | exact H2 ].
Defined.

Lemma LoadConfig_undecodable_payload_witness :
  Data (document "cyclone" payload_bad_type) !! ConfigFileKey = Some payload_bad_type ∧
  (sample_LoadConfig (document "cyclone" payload_bad_type) initial_World).1 =
    Some (JSONError (UnmarshalTypeError "string" "WorkersNumber.pod" "int")).
Proof.
  split; [ vm_compute; reflexivity | ].
  apply (LoadConfig_undecodable_payload sample_Error sample_Unmarshal
           (document "cyclone" payload_bad_type) initial_World payload_bad_type
           (set_CycloneServerAddr "http://elsewhere" (zero_Config tt)));
    vm_compute; reflexivity.
Defined.

Lemma LoadConfig_defaults_each_pool_witness :
  Data (document "cyclone" payload_workers) !! ConfigFileKey = Some payload_workers ∧
  (sample_Unmarshal payload_workers (Config initial_World)).2 = None ∧
  let after := WorkersNumber_
                 (Config (sample_LoadConfig (document "cyclone" payload_workers) initial_World).2) in
  ExecutionCluster after = 1 ∧ WorkflowTrigger after = 3 ∧
  WorkflowRun after = -2 ∧ Pod after = 1.
Proof.
  split; [ vm_compute; reflexivity | ]. split; [ vm_compute; reflexivity | ].
  refine (proj2 (LoadConfig_defaults_each_pool sample_Error sample_Unmarshal
                   (document "cyclone" payload_workers) initial_World payload_workers
                   (sample_Unmarshal payload_workers (Config initial_World)).1 _ _));
    vm_compute; reflexivity.
Defined.

Lemma LoadConfig_without_PVC_witness :
  Data (document "cyclone" payload_workers) !! ConfigFileKey = Some payload_workers ∧
  PVC (ExecutionContext_ (sample_Unmarshal payload_workers (Config initial_World)).1) = "" ∧
  (sample_LoadConfig (document "cyclone" payload_workers) initial_World).1 = None.
Proof.
  split; [ vm_compute; reflexivity | ]. split; [ vm_compute; reflexivity | ].
  refine (proj1 (LoadConfig_without_PVC sample_Error sample_Unmarshal
                   (document "cyclone" payload_workers) initial_World payload_workers
                   (sample_Unmarshal payload_workers (Config initial_World)).1 _ _ _));
    vm_compute; reflexivity.
Defined.

Lemma LoadConfig_keeps_negative_pool_witness :
  Data (document "cyclone" payload_workers) !! ConfigFileKey = Some payload_workers ∧
  WorkflowRun (WorkersNumber_ (sample_Unmarshal payload_workers (Config initial_World)).1) = -2 ∧
  WorkflowRun (WorkersNumber_
                 (Config (sample_LoadConfig (document "cyclone" payload_workers) initial_World).2))
  = -2.
Proof.
  split; [ vm_compute; reflexivity | ]. split; [ vm_compute; reflexivity | ].
  refine (proj1 (proj2 (proj2
            (LoadConfig_keeps_negative_pool sample_Error sample_Unmarshal
               (document "cyclone" payload_workers) initial_World payload_workers
               (sample_Unmarshal payload_workers (Config initial_World)).1 _ _))) _);
    vm_compute; reflexivity.
Defined.

Lemma ImagePullPolicy_by_environment_witness :
  ImagePullPolicy {[ DevModeEnvName := "true" ]} = PullAlways ∧
  ImagePullPolicy ∅ = PullIfNotPresent ∧
  ImagePullPolicy {[ DevModeEnvName := "TRUE" ]} = PullIfNotPresent ∧
  ImagePullPolicy {[ DevModeEnvName := "1" ]} = PullIfNotPresent.
Proof.
  split; [ | split; [ | split ] ].
  - apply (proj1 (ImagePullPolicy_by_environment _)). vm_compute; reflexivity.
  - apply (proj2 (ImagePullPolicy_by_environment _)). vm_compute; discriminate.
  - apply (proj2 (ImagePullPolicy_by_environment _)). vm_compute; discriminate.
  - apply (proj2 (ImagePullPolicy_by_environment _)). vm_compute; discriminate.
Defined.

(** A text that is not JSON is refused by the decoder before it stores
    anything: the load fails and Config is as before. *)
Example garbage_payload_keeps_Config :
  (sample_LoadConfig (document "cyclone" payload_garbage) initial_World).1 =
    Some (JSONError (SyntaxError "invalid character 'w' looking for beginning of value")) ∧
  Config (sample_LoadConfig (document "cyclone" payload_garbage) initial_World).2
    = Config initial_World.
Proof. split; vm_compute; reflexivity. Qed.

(** C5 as stated fails: the document below has the key and a payload whose
    pod size is a string. The decoder stores the server address, reports
    the mismatch, and LoadConfig returns the error with Config changed. *)
Lemma failed_load_changes_Config :
  (sample_LoadConfig (document "cyclone" payload_bad_type) initial_World).1 =
    Some (JSONError (UnmarshalTypeError "string" "WorkersNumber.pod" "int")) ∧
  Config (sample_LoadConfig (document "cyclone" payload_bad_type) initial_World).2
    ≠ Config initial_World.
Proof.
  split; [ vm_compute; reflexivity | ].
  intros H. apply (f_equal CycloneServerAddr) in H. vm_compute in H. discriminate.
Qed.

Lemma failed_LoadConfig_state_witness :
  (sample_LoadConfig (document "cyclone" payload_bad_type) initial_World).1 =
    Some (JSONError (UnmarshalTypeError "string" "WorkersNumber.pod" "int")) ∧
  ((Data (document "cyclone" payload_bad_type) !! ConfigFileKey = None ∧
    (sample_LoadConfig (document "cyclone" payload_bad_type) initial_World).2 = initial_World) ∨
   (∃ data je,
      Data (document "cyclone" payload_bad_type) !! ConfigFileKey = Some data ∧
      (sample_Unmarshal data (Config initial_World)).2 = Some je ∧
      Config (sample_LoadConfig (document "cyclone" payload_bad_type) initial_World).2 =
        (sample_Unmarshal data (Config initial_World)).1 ∧
      trace (sample_LoadConfig (document "cyclone" payload_bad_type) initial_World).2 =
        Log DebugLevel [("data", data)] ("Unmarshal config data error: " +:+ sample_Error je)
        :: Enter CallUnmarshal :: trace initial_World)).
Proof.
  assert (He : (sample_LoadConfig (document "cyclone" payload_bad_type) initial_World).1 =
               Some (JSONError (UnmarshalTypeError "string" "WorkersNumber.pod" "int")))
    by (vm_compute; reflexivity).
  split; [ exact He | ].
  exact (failed_LoadConfig_state sample_Error sample_Unmarshal
           (document "cyclone" payload_bad_type) initial_World _ He).
Defined.

(** C7 as stated fails: after the first document has been loaded, loading a
    second one succeeds and changes Config in place: the pod size comes from
    the second document, the server address is still the one of the first. *)
Lemma second_load_rewrites_Config :
  let w1 := (sample_LoadConfig (document "cyclone" payload_workers) initial_World).2 in
  let w2 := (sample_LoadConfig (document "cyclone" payload_pod) w1).2 in
  (sample_LoadConfig (document "cyclone" payload_workers) initial_World).1 = None ∧
  (sample_LoadConfig (document "cyclone" payload_pod) w1).1 = None ∧
  Config w2 ≠ Config w1 ∧
  Pod (WorkersNumber_ (Config w1)) = 1 ∧
  Pod (WorkersNumber_ (Config w2)) = 4 ∧
  CycloneServerAddr (Config w2) = "http://cyclone-server".
Proof.
  cbv zeta. split; [ vm_compute; reflexivity | ]. split; [ vm_compute; reflexivity | ].
  split; [ | repeat split; vm_compute; reflexivity ].
  intros H. apply (f_equal (λ c, Pod (WorkersNumber_ c))) in H.
  vm_compute in H. discriminate.
Qed.

Lemma loaded_Config_stability_witness :
  let w1 := (sample_LoadConfig (document "cyclone" payload_workers) initial_World).2 in
  (sample_LoadConfig (document "cyclone" payload_workers) initial_World).1 = None ∧
  Config (defaultValues w1).2 = Config w1 ∧
  (sample_LoadConfig (document_without_key "cyclone") w1).2 = w1.
Proof.
  cbv zeta.
  assert (Hok : (sample_LoadConfig (document "cyclone" payload_workers) initial_World).1 = None)
    by (vm_compute; reflexivity).
  split; [ exact Hok | ].
  destruct (loaded_Config_stability sample_Error sample_Unmarshal
              (document "cyclone" payload_workers) initial_World Hok)
    as (_ & _ & Hd & _ & Hm & _).
  split; [ exact Hd | ].
  apply Hm. vm_compute; reflexivity.
Defined.

(** * Further properties of the loader *)

Section DefaultingProperties.

Context {RR : Type}.

Lemma defaultValues_trace (w : World RR) :
  trace (defaultValues w).2 =
  (defaulting_logs (WorkersNumber_ (Config w)) ++ trace w)%list.
Proof.
  destruct w as [[? ? ? ? ? ? ? ? ? ? [ec wt wr pod]] tr].
  destruct ec, wt, wr, pod; reflexivity.
Qed.

Lemma defaulting_logs_length (wn : WorkersNumber) :
  length (defaulting_logs wn) = zero_sizes wn.
Proof.
  destruct wn as [ec wt wr pod]. unfold defaulting_logs, zero_sizes. cbn.
  destruct (ec =? 0)%Z, (wt =? 0)%Z, (wr =? 0)%Z, (pod =? 0)%Z; reflexivity.
Qed.

Lemma defaulting_logs_calls (wn : WorkersNumber) :
  omap entered_call (defaulting_logs wn) = [].
Proof.
  destruct wn as [ec wt wr pod]. unfold defaulting_logs. cbn.
  destruct (ec =? 0)%Z, (wt =? 0)%Z, (wr =? 0)%Z, (pod =? 0)%Z; reflexivity.
Qed.

Lemma defaulting_logs_no_warning (wn : WorkersNumber) e :
  e ∈ defaulting_logs wn -> ¬ is_warning e.
Proof.
  destruct wn as [ec wt wr pod]. unfold defaulting_logs. cbn.
  intros He (fields & msg & ->).
  destruct (ec =? 0)%Z, (wt =? 0)%Z, (wr =? 0)%Z, (pod =? 0)%Z; cbn in He;
    repeat (apply elem_of_cons in He as [He|He]; [ discriminate | ]);
    by apply elem_of_nil in He.
Qed.

(** X1: defaultValues is idempotent, and its second run is silent: run on
    the world a first run left, it returns that world as it is, with no
    further write and no further log record. *)
Theorem defaultValues_idempotent (w : World RR) :
  defaultValues (defaultValues w).2 = (tt, (defaultValues w).2).
Proof.
  destruct w as [[? ? ? ? ? ? ? ? ? ? [ec wt wr pod]] tr].
  destruct ec, wt, wr, pod; reflexivity.
Qed.

(** X2: when none of the four sizes is zero, defaultValues does nothing:
    the world it returns is the world it got. *)
Theorem defaultValues_nothing_to_default (w : World RR) :
  ExecutionCluster (WorkersNumber_ (Config w)) ≠ 0 ->
  WorkflowTrigger (WorkersNumber_ (Config w)) ≠ 0 ->
  WorkflowRun (WorkersNumber_ (Config w)) ≠ 0 ->
  Pod (WorkersNumber_ (Config w)) ≠ 0 ->
  defaultValues w = (tt, w).
Proof.
  destruct w as [[? ? ? ? ? ? ? ? ? ? [ec wt wr pod]] tr]. cbn.
  intros Hec Hwt Hwr Hpod.
  destruct ec, wt, wr, pod; first [ done | reflexivity ].
Qed.

(** X3: defaultValues writes to the worker-pool sizes only: every other
    field of the configuration is after the call what it was before. *)
Theorem defaultValues_keeps_other_fields (w : World RR) :
  let c := Config w in
  let c' := Config (defaultValues w).2 in
  Images c' = Images c ∧ Logging c' = Logging c ∧ GC c' = GC c ∧
  Limits c' = Limits c ∧ Parallelism c' = Parallelism c ∧
  Cfg_ResourceRequirements c' = Cfg_ResourceRequirements c ∧
  ExecutionContext_ c' = ExecutionContext_ c ∧
  CycloneServerAddr c' = CycloneServerAddr c ∧
  NotificationURL c' = NotificationURL c ∧
  DindSettings_ c' = DindSettings_ c.
Proof.
  cbv zeta. rewrite defaultValues_Config. by repeat split.
Qed.

(** X4: defaultValues logs one Info record for each size it finds at zero
    and nothing else: the records it adds are those of its tests that
    fired, in the order ExecutionCluster, Pod, WorkflowTrigger, WorkflowRun
    (the newest at the head), and there are as many as there were zero
    sizes. *)
Theorem defaultValues_logs_each_default (w : World RR) :
  trace (defaultValues w).2 =
    (defaulting_logs (WorkersNumber_ (Config w)) ++ trace w)%list ∧
  length (trace (defaultValues w).2) =
    (zero_sizes (WorkersNumber_ (Config w)) + length (trace w))%nat.
Proof.
  rewrite defaultValues_trace. split; [ done | ].
  by rewrite length_app, defaulting_logs_length.
Qed.

End DefaultingProperties.

Section LoadingProperties.

Context {RR json_error : Type}.
Context (Error : json_error -> string).
Context (Unmarshal : string -> WorkflowControllerConfig RR ->
                     WorkflowControllerConfig RR * option json_error).

Local Abbreviation load := (LoadConfig Error Unmarshal).

Lemma load_decoded_events (cm : ConfigMap) (w : World RR) data c' :
  Data cm !! ConfigFileKey = Some data ->
  Unmarshal data (Config w) = (c', None) ->
  events_since w (load cm w).2 (success_events c').
Proof.
  intros Hk Hd. unfold events_since, success_events.
  rewrite (load_decoded Error Unmarshal cm w data c' Hk Hd).
  etrans; [ apply InitLogger_trace | ].
  change (trace (entered CallInitLogger ?x)) with (Enter CallInitLogger :: trace x).
  change (Config (entered CallInitLogger ?x)) with (Config x).
  rewrite defaultValues_trace, defaultValues_Config.
  change (Config (entered CallDefaultValues ?x)) with (Config x).
  change (trace (entered CallDefaultValues ?x)) with (Enter CallDefaultValues :: trace x).
  rewrite validate_Config, validate_trace. cbn. unfold validation_logs.
  f_equal. f_equal. rewrite <- app_assoc. f_equal. cbn. f_equal.
  rewrite <- app_assoc. by destruct (bool_decide _).
Qed.

(** X5: a successful load logs a warning exactly when the decoded
    configuration has no PVC: among the events the load adds there is a
    Warn record if and only if the PVC is the empty string. *)
Theorem LoadConfig_warns_iff_no_PVC (cm : ConfigMap) (w : World RR) data c' :
  Data cm !! ConfigFileKey = Some data ->
  Unmarshal data (Config w) = (c', None) ->
  ∃ evs, events_since w (load cm w).2 evs ∧
         ((∃ e, e ∈ evs ∧ is_warning e) ↔ PVC (ExecutionContext_ c') = "").
Proof.
  intros Hk Hd. exists (success_events c'). split.
  - by apply (load_decoded_events cm w data c').
  - unfold success_events, validation_logs. split.
    + intros (e & He & Hw). case_bool_decide as Hp; [ done | exfalso ].
      cbn in He.
      apply elem_of_cons in He as [->|He]; [ by destruct Hw as (? & ? & ?) | ].
      apply elem_of_cons in He as [->|He]; [ by destruct Hw as (? & ? & ?) | ].
      apply elem_of_app in He as [He|He]; [ by eapply defaulting_logs_no_warning | ].
      repeat (apply elem_of_cons in He as [->|He]; [ by destruct Hw as (? & ? & ?) | ]).
      by apply elem_of_nil in He.
    + intros Hp. rewrite bool_decide_eq_true_2 by done.
      exists (Log WarnLevel [] "PVC not configured, resources won't be shared among stages and artifacts unsupported.").
      split; [ set_solver | by eexists _, _ ].
Qed.

(** X6: LoadConfig only adds to the trace, and the calls it enters are, in
    this order, none for a document without the key, the decoder alone
    when the decoder reports an error, and the decoder, validate,
    defaultValues and InitLogger when it does not. A key that is present
    with an empty value goes to the decoder like any other value. *)
Theorem LoadConfig_call_order (cm : ConfigMap) (w : World RR) :
  ∃ evs, events_since w (load cm w).2 evs ∧
         calls_of evs =
         match Data cm !! ConfigFileKey with
         | None => []
         | Some data =>
             match (Unmarshal data (Config w)).2 with
             | Some _ => [CallUnmarshal]
             | None => [CallUnmarshal; CallValidate; CallDefaultValues; CallInitLogger]
             end
         end.
Proof.
  destruct (Data cm !! ConfigFileKey) as [data|] eqn:Hk.
  - destruct (Unmarshal data (Config w)) as [c' [je|]] eqn:Hd.
    + rewrite (load_undecodable Error Unmarshal cm w data c' je Hk Hd).
      eexists [_; _]. split; reflexivity.
    + exists (success_events c'). split; [ by apply (load_decoded_events cm w data c') | ].
      unfold calls_of, success_events. cbn.
      rewrite omap_app, defaulting_logs_calls. cbn.
      rewrite omap_app. unfold validation_logs.
      by destruct (bool_decide _).
  - rewrite (load_missing Error Unmarshal cm w Hk). by exists [].
Qed.


(** X8: LoadConfig reads the ConfigMap through the entry under
    workflow-controller.json only: two ConfigMaps with the same payload
    under that key load alike whatever their names and their other
    entries; when the key is absent from both, they load alike as soon as
    their names agree. *)
Theorem LoadConfig_reads_only_the_policy_key (cm1 cm2 : ConfigMap) (w : World RR) :
  Data cm1 !! ConfigFileKey = Data cm2 !! ConfigFileKey ->
  (is_Some (Data cm1 !! ConfigFileKey) ∨ Name cm1 = Name cm2) ->
  load cm1 w = load cm2 w.
Proof.
  intros Hk Hn. unfold LoadConfig. rewrite <- Hk.
  destruct (Data cm1 !! ConfigFileKey) as [data|]; [ done | ].
  destruct Hn as [[? Hs]|Hn]; [ done | ].
  unfold missing_key_message. by rewrite Hn.
Qed.

(** X10: on a successful load the logger set-up is the last thing that
    happens, and it is handed the logging configuration the decoder left:
    validate and defaultValues, which run in between, do not touch it. *)
Theorem LoadConfig_sets_up_logger_last (cm : ConfigMap) (w : World RR) data c' :
  Data cm !! ConfigFileKey = Some data ->
  Unmarshal data (Config w) = (c', None) ->
  head (trace (load cm w).2) = Some (LoggerInitialised (Logging c')) ∧
  Logging (Config (load cm w).2) = Logging c'.
Proof.
  intros Hk Hd. split.
  - by rewrite (load_decoded_events cm w data c' Hk Hd).
  - by destruct (load_decoded_Config Error Unmarshal cm w data c' Hk Hd) as [_ ->].
Qed.

End LoadingProperties.

Lemma append_length (a b : string) :
  String.length (a +:+ b) = (String.length a + String.length b)%nat.
Proof.
  induction a as [|x a IH]; [ reflexivity | ].
  change (S (String.length (a +:+ b)) = S (String.length a + String.length b)).
  by rewrite IH.
Qed.

Lemma append_same_tail (a b tail : string) : a +:+ tail = b +:+ tail -> a = b.
Proof.
  revert b. induction a as [|x a IH]; intros [|y b] H.
  - done.
  - apply (f_equal String.length) in H. rewrite !append_length in H.
    change (String.length (String y b)) with (S (String.length b)) in H.
    change (String.length EmptyString) with 0%nat in H. lia.
  - apply (f_equal String.length) in H. rewrite !append_length in H.
    change (String.length (String x a)) with (S (String.length a)) in H.
    change (String.length EmptyString) with 0%nat in H. lia.
  - change (String x (a +:+ tail) = String y (b +:+ tail)) in H.
    injection H as -> H. f_equal. by apply IH.
Qed.

(** X11: the missing-key error tells the ConfigMaps apart: two ConfigMaps
    get the same message only if they have the same name. *)
Theorem missing_key_message_names_ConfigMap (cm1 cm2 : ConfigMap) :
  missing_key_message cm1 = missing_key_message cm2 -> Name cm1 = Name cm2.
Proof.
  unfold missing_key_message. cbn. intros H.
  repeat injection H as H.
  change ("" +:+ ?x) with x in H. by apply append_same_tail in H.
Qed.

(** X9: ImagePullPolicy reads DEVELOP_MODE and nothing else: environments
    that give that variable the same value get the same policy, setting
    it to the empty string is the same as leaving it unset, and the policy
    is never PullNever. *)
Theorem ImagePullPolicy_reads_only_DEVELOP_MODE :
  (∀ env1 env2 : gmap string string,
     env1 !! DevModeEnvName = env2 !! DevModeEnvName ->
     ImagePullPolicy env1 = ImagePullPolicy env2) ∧
  (∀ env : gmap string string,
     ImagePullPolicy (<[DevModeEnvName := ""]> env) =
     ImagePullPolicy (delete DevModeEnvName env)) ∧
  (∀ env : gmap string string, ImagePullPolicy env ≠ PullNever).
Proof.
  split; [ | split ].
  - intros env1 env2 H. unfold ImagePullPolicy, Getenv. by rewrite H.
  - intros env. unfold ImagePullPolicy, Getenv.
    by rewrite lookup_insert_eq, lookup_delete_eq.
  - intros env. unfold ImagePullPolicy. by destruct (bool_decide _).
Qed.

(** ** The further properties at the sample documents *)

Lemma defaultValues_nothing_to_default_witness :
  Pod (WorkersNumber_ (Config configured_World)) ≠ 0 ∧
  defaultValues configured_World = (tt, configured_World).
Proof.
  split; [ vm_compute; discriminate | ].
  apply (defaultValues_nothing_to_default configured_World); vm_compute; discriminate.
Defined.

Lemma LoadConfig_warns_iff_no_PVC_witness :
  Data (document "cyclone" payload_workers) !! ConfigFileKey = Some payload_workers ∧
  ∃ evs,
    events_since initial_World
      (sample_LoadConfig (document "cyclone" payload_workers) initial_World).2 evs ∧
    ((∃ e, e ∈ evs ∧ is_warning e) ↔
     PVC (ExecutionContext_ (sample_Unmarshal payload_workers (Config initial_World)).1) = "").
Proof.
  split; [ vm_compute; reflexivity | ].
  apply (LoadConfig_warns_iff_no_PVC sample_Error sample_Unmarshal
           (document "cyclone" payload_workers) initial_World payload_workers);
    vm_compute; reflexivity.
Defined.


Lemma LoadConfig_reads_only_the_policy_key_witness :
  Data (document "cyclone" payload_workers) !! ConfigFileKey =
    Data crowded_document !! ConfigFileKey ∧
  Name (document "cyclone" payload_workers) ≠ Name crowded_document ∧
  sample_LoadConfig (document "cyclone" payload_workers) initial_World =
  sample_LoadConfig crowded_document initial_World.
Proof.
  split; [ vm_compute; reflexivity | ]. split; [ vm_compute; discriminate | ].
  apply (LoadConfig_reads_only_the_policy_key sample_Error sample_Unmarshal);
    [ vm_compute; reflexivity | left; vm_compute; eauto ].
Defined.

Lemma LoadConfig_sets_up_logger_last_witness :
  Data (document "cyclone" payload_workers) !! ConfigFileKey = Some payload_workers ∧
  head (trace (sample_LoadConfig (document "cyclone" payload_workers) initial_World).2) =
    Some (LoggerInitialised {| Level := "" |}).
Proof.
  split; [ vm_compute; reflexivity | ].
  refine (proj1 (LoadConfig_sets_up_logger_last sample_Error sample_Unmarshal
                   (document "cyclone" payload_workers) initial_World payload_workers
                   (sample_Unmarshal payload_workers (Config initial_World)).1 _ _));
    vm_compute; reflexivity.
Defined.

Lemma missing_key_message_names_ConfigMap_witness :
  missing_key_message (document_without_key "cyclone") =
    missing_key_message (document "cyclone" payload_pod) ∧
  Name (document_without_key "cyclone") = Name (document "cyclone" payload_pod).
Proof.
  assert (H : missing_key_message (document_without_key "cyclone") =
              missing_key_message (document "cyclone" payload_pod)) by reflexivity.
  split; [ exact H | ].
  exact (missing_key_message_names_ConfigMap _ _ H).
Defined.

(** * Properties of admission control *)

Local Close Scope string_scope.

Section FilterSize.

Context {V : Type} (P : nat * V -> Prop) `{!∀ kv, Decision (P kv)}.

Lemma size_filter_insert_le (m : gmap nat V) i x :
  (size (filter P (<[i:=x]> m)) ≤ S (size (filter P m)))%nat.
Proof.
  rewrite map_filter_insert. case_decide.
  - rewrite map_size_insert. destruct (filter P m !! i); cbn; lia.
  - rewrite map_filter_delete, map_size_delete.
    destruct (filter P m !! i); cbn; lia.
Qed.

Lemma size_filter_insert_not (m : gmap nat V) i x :
  ¬ P (i, x) -> (size (filter P (<[i:=x]> m)) ≤ size (filter P m))%nat.
Proof.
  intros Hx. rewrite map_filter_insert_False by done.
  rewrite map_filter_delete, map_size_delete.
  destruct (filter P m !! i); cbn; lia.
Qed.

Lemma size_filter_insert_drop (m : gmap nat V) i x y :
  m !! i = Some y -> P (i, y) -> ¬ P (i, x) ->
  S (size (filter P (<[i:=x]> m))) = size (filter P m).
Proof.
  intros Hi Hy Hx. rewrite map_filter_insert_False by done.
  assert (Hf : filter P m !! i = Some y) by (by apply map_lookup_filter_Some).
  rewrite map_filter_delete, map_size_delete, Hf. cbn.
  pose proof (map_size_ne_0_lookup_2 (filter P m) i (mk_is_Some _ _ Hf)). lia.
Qed.

End FilterSize.

Section AdmissionProperties.

Context (p : ParallelismConfig).

Lemma running_of_insert (ac : AdmissionController) wf wf' n :
  default 0 (<[wf := n]> (runningPerWorkflow ac) !! wf') =
  if decide (wf = wf') then n else running_of ac wf'.
Proof.
  unfold running_of. rewrite lookup_insert. by case_decide.
Qed.

Lemma has_capacity_true (ac : AdmissionController) wf :
  has_capacity p ac wf = true ->
  runningGlobal ac < MaxParallel (Overall p) ∧
  running_of ac wf < MaxParallel (SingleWorkflow p).
Proof.
  unfold has_capacity. intros [H1 H2]%andb_prop. split; lia.
Qed.

Lemma covered_start :
  0 ≤ MaxParallel (Overall p) -> 0 ≤ MaxParallel (SingleWorkflow p) ->
  counters_cover_runs p empty_controller.
Proof.
  intros Ho Hs. split.
  - unfold running_count. cbn. rewrite map_filter_empty, map_size_empty. lia.
  - intros wf. unfold running_count_of, running_of. cbn.
    rewrite map_filter_empty, map_size_empty, lookup_empty. cbn. lia.
Qed.

Lemma covered_admit (r : Run) (ac : AdmissionController) :
  counters_cover_runs p ac ->
  has_capacity p ac (workflowID r) = true ->
  counters_cover_runs p (admit_run r ac).
Proof.
  intros [Hg Hw] [Hcg Hcw]%has_capacity_true. split.
  - unfold running_count. cbn.
    pose proof (size_filter_insert_le is_running (runs ac) (runID r) (workflowID r, Running)).
    unfold running_count in Hg. lia.
  - intros wf. unfold running_count_of. cbn.
    change (running_of (admit_run r ac) wf)
      with (default 0 (<[workflowID r := running_of ac (workflowID r) + 1]>
                         (runningPerWorkflow ac) !! wf)).
    rewrite running_of_insert. specialize (Hw wf). unfold running_count_of in Hw.
    case_decide as Hwf.
    + subst wf.
      pose proof (size_filter_insert_le (is_running_of (workflowID r)) (runs ac)
                    (runID r) (workflowID r, Running)). lia.
    + assert (Hnot : ¬ is_running_of wf (runID r, (workflowID r, Running)))
        by (unfold is_running_of; cbn; congruence).
      pose proof (size_filter_insert_not (is_running_of wf) (runs ac) _ _ Hnot). lia.
Qed.

Lemma covered_same_counters (ac ac' : AdmissionController) :
  runningGlobal ac' = runningGlobal ac ->
  runningPerWorkflow ac' = runningPerWorkflow ac ->
  (running_count ac' ≤ running_count ac)%nat ->
  (∀ wf, (running_count_of ac' wf ≤ running_count_of ac wf)%nat) ->
  counters_cover_runs p ac -> counters_cover_runs p ac'.
Proof.
  intros Hg Hw Hc Hcw [Hig Hiw]. split.
  - rewrite Hg. lia.
  - intros wf. specialize (Hiw wf). specialize (Hcw wf).
    unfold running_of in *. rewrite Hw. lia.
Qed.

Lemma covered_dequeue (r : Run) (ac : AdmissionController) :
  counters_cover_runs p ac -> counters_cover_runs p (dequeue r ac).
Proof. apply covered_same_counters; intros; reflexivity. Qed.

Lemma covered_enqueue (r : Run) (ac : AdmissionController) :
  counters_cover_runs p ac -> counters_cover_runs p (enqueue r ac).
Proof.
  apply covered_same_counters; try reflexivity.
  - apply size_filter_insert_not. unfold is_running. cbn. congruence.
  - intros wf. apply size_filter_insert_not. unfold is_running_of. cbn. congruence.
Qed.

Lemma covered_RequestAdmission (r : Run) (ac : AdmissionController) :
  counters_cover_runs p ac -> counters_cover_runs p (RequestAdmission p r ac).2.
Proof.
  intros Hi. unfold RequestAdmission.
  destruct (has_capacity p ac (workflowID r)) eqn:Hc; cbn.
  - by apply covered_admit.
  - destruct (has_queue_room p ac (workflowID r)); cbn; [ by apply covered_enqueue | done ].
Qed.

Lemma covered_promote (candidates : list Run) (ac : AdmissionController) :
  counters_cover_runs p ac -> counters_cover_runs p (promote p candidates ac).
Proof.
  revert ac. induction candidates as [|r rest IH]; intros ac Hi; cbn; [ done | ].
  apply IH. destruct (has_capacity p ac (workflowID r)) eqn:Hc; [ | done ].
  apply covered_admit; [ by apply covered_dequeue | exact Hc ].
Qed.

Lemma terminal_not_running (t : Terminal) : terminal_state t ≠ Running.
Proof. by destruct t. Qed.

Lemma covered_release (r : Run) (t : Terminal) (ac : AdmissionController) :
  runs ac !! runID r = Some (workflowID r, Running) ->
  counters_cover_runs p ac -> counters_cover_runs p (release r t ac).
Proof.
  intros Hr [Hg Hw]. pose proof (terminal_not_running t) as Ht. split.
  - unfold running_count in *. cbn.
    assert (Hnot : ¬ is_running (runID r, (workflowID r, terminal_state t)))
      by (unfold is_running; cbn; congruence).
    pose proof (size_filter_insert_drop is_running (runs ac) _ _ _ Hr eq_refl Hnot). lia.
  - intros wf. unfold running_count_of. cbn.
    change (running_of (release r t ac) wf)
      with (default 0 (<[workflowID r := running_of ac (workflowID r) - 1]>
                         (runningPerWorkflow ac) !! wf)).
    rewrite running_of_insert. specialize (Hw wf). unfold running_count_of in Hw.
    assert (Hnot : ¬ is_running_of wf (runID r, (workflowID r, terminal_state t)))
      by (unfold is_running_of; cbn; congruence).
    case_decide as Hwf.
    + subst wf.
      pose proof (size_filter_insert_drop (is_running_of (workflowID r)) (runs ac)
                    _ _ _ Hr eq_refl Hnot). lia.
    + pose proof (size_filter_insert_not (is_running_of wf) (runs ac) _ _ Hnot). lia.
Qed.

Lemma covered_NotifyCompletion (r : Run) (t : Terminal) (ac : AdmissionController) :
  runs ac !! runID r = Some (workflowID r, Running) ->
  counters_cover_runs p ac -> counters_cover_runs p (NotifyCompletion p r t ac).
Proof.
  intros Hr Hi. unfold NotifyCompletion. cbv zeta.
  by apply covered_promote, covered_release.
Qed.

Lemma covered_reachable (ac : AdmissionController) :
  0 ≤ MaxParallel (Overall p) -> 0 ≤ MaxParallel (SingleWorkflow p) ->
  reachable p ac -> counters_cover_runs p ac.
Proof.
  intros Ho Hs Hreach. induction Hreach as [ | r ac _ IH | r t ac _ IH Hr ].
  - by apply covered_start.
  - by apply covered_RequestAdmission.
  - by apply covered_NotifyCompletion.
Qed.

(** C8: in every state the controller can reach by any sequence of
    RequestAdmission and NotifyCompletion calls, with limits that are not
    negative, the runs in state Running number at most overall.maxParallel,
    and those of each workflow at most perWorkflow.maxParallel. *)
Theorem running_within_limits (ac : AdmissionController) :
  0 ≤ MaxParallel (Overall p) -> 0 ≤ MaxParallel (SingleWorkflow p) ->
  reachable p ac ->
  Z.of_nat (running_count ac) ≤ MaxParallel (Overall p) ∧
  ∀ wf, Z.of_nat (running_count_of ac wf) ≤ MaxParallel (SingleWorkflow p).
Proof.
  intros Ho Hs Hreach. destruct (covered_reachable ac Ho Hs Hreach) as [Hg Hw].
  split; [ lia | ]. intros wf. specialize (Hw wf). lia.
Qed.

End AdmissionProperties.

(** ** The scenarios of section 8 *)

Example scenario_two_admitted_one_queued_one_rejected :
  (RequestAdmission scenario_limits (mkRun 1 7) (after_requests 0)).1 = RunAdmitted ∧
  (RequestAdmission scenario_limits (mkRun 2 7) (after_requests 1)).1 = RunAdmitted ∧
  (RequestAdmission scenario_limits (mkRun 3 7) (after_requests 2)).1 = Enqueued ∧
  (RequestAdmission scenario_limits (mkRun 4 7) (after_requests 3)).1 = Rejected QueueFull ∧
  state_of (after_requests 4) 3 = Queued ∧
  state_of (after_requests 4) 4 = Pending.
Proof. repeat split; vm_compute; reflexivity. Qed.

Example scenario_completion_promotes :
  state_of after_completion 1 = Completed ∧
  state_of after_completion 3 = Running ∧
  queueGlobal after_completion = [] ∧
  running_count after_completion = 2%nat.
Proof. repeat split; vm_compute; reflexivity. Qed.

(** Limits 10 overall and 1 per workflow: the second run of a workflow
    waits, a run of another workflow is admitted at once. *)
Example scenario_workflows_independent :
  let lim := limits 10 5 1 5 in
  let s1 := (RequestAdmission lim (mkRun 1 7) empty_controller).2 in
  let s2 := (RequestAdmission lim (mkRun 2 7) s1).2 in
  (RequestAdmission lim (mkRun 1 7) empty_controller).1 = RunAdmitted ∧
  (RequestAdmission lim (mkRun 2 7) s1).1 = Enqueued ∧
  (RequestAdmission lim (mkRun 3 8) s2).1 = RunAdmitted.
Proof. repeat split; vm_compute; reflexivity. Qed.

Lemma after_requests_reachable (n : nat) : reachable scenario_limits (after_requests n).
Proof.
  unfold after_requests. induction n as [|n IH].
  - apply reach_start.
  - rewrite seq_S, foldl_app. cbn. by apply reach_request.
Qed.

Lemma running_within_limits_witness :
  0 ≤ MaxParallel (Overall scenario_limits) ∧
  0 ≤ MaxParallel (SingleWorkflow scenario_limits) ∧
  reachable scenario_limits after_completion ∧
  Z.of_nat (running_count after_completion) ≤ 2 ∧
  ∀ wf, Z.of_nat (running_count_of after_completion wf) ≤ 2.
Proof.
  assert (Ho : 0 ≤ MaxParallel (Overall scenario_limits)) by (cbn; lia).
  assert (Hs : 0 ≤ MaxParallel (SingleWorkflow scenario_limits)) by (cbn; lia).
  assert (Hr : reachable scenario_limits after_completion).
  { apply reach_complete; [ apply after_requests_reachable | vm_compute; reflexivity ]. }
  split; [ exact Ho | ]. split; [ exact Hs | ]. split; [ exact Hr | ].
  exact (running_within_limits scenario_limits after_completion Ho Hs Hr).
Defined.
